(** * gdata.base.service: the Google Base service facade

    A shallow embedding of [src/gdata/base/service.py]: the class
    [GBaseService] (a thin layer over [gdata.service.GDataService]) and the
    class [BaseQuery] (a [dict] of URL parameters with one named accessor).

    Python strings are [string]; dictionaries keyed by strings are stdpp's
    [gmap string _]; the methods of [GBaseService] run in a state-and-error
    monad over the service handle, and the methods inherited from
    [GDataService] are an interface ([Class GDataService]) the facade is
    written against. *)

From Stdlib Require Import String Ascii List Bool.
From stdpp Require Import base option strings gmap.

Local Open Scope string_scope.

(** ** Python built-ins used by the module *)

Module Py.

(** [c in chars], for a one-character string [c]. *)
Fixpoint char_in (c : ascii) (chars : string) : bool :=
  match chars with
  | EmptyString => false
  | String c' chars' => if Ascii.eqb c c' then true else char_in c chars'
  end.

(** [s.lstrip(chars)]: "Return a copy of the string with leading
    characters removed. The chars argument is a string specifying the set
    of characters to be removed"; it is not a prefix. *)
Fixpoint lstrip (s chars : string) : string :=
  match s with
  | EmptyString => EmptyString
  | String c s' => if char_in c chars then lstrip s' chars else s
  end.

(** ['/%s' % (s)] for a string [s]. *)
Definition format_slash (s : string) : string := "/" ++ s.

(** [s.startswith(p)]. *)
Fixpoint startswith (s p : string) : bool :=
  match p, s with
  | EmptyString, _ => true
  | String a p', String b s' => if Ascii.eqb a b then startswith s' p' else false
  | String _ _, EmptyString => false
  end.

(** Every character of [p] occurs in [chars]. *)
Fixpoint all_in (p chars : string) : bool :=
  match p with
  | EmptyString => true
  | String c p' => char_in c chars && all_in p' chars
  end.

End Py.

(** ** Python values, exceptions and the service handle *)

(** Values that cross the facade. [Obj] stands for the objects of the
    libraries the module imports (feeds, entries, ElementTree elements);
    this module never looks inside them. *)
Inductive PyVal (Obj : Type) : Type :=
| PyNone
| PyBool (b : bool)
| PyStr (s : string)
| PyObj (o : Obj).
Arguments PyNone {Obj}.
Arguments PyBool {Obj} b.
Arguments PyStr {Obj} s.
Arguments PyObj {Obj} o.

(** The two exception classes declared at lines 44-49. *)
Inductive declared : Type := Error | RequestError.

(** Exceptions the interpreter raises while it evaluates the module's own
    expressions. *)
Inductive builtin_exn : Type :=
| KeyError (key : string)
| TypeError
| AttributeError.

(** An exception seen by a caller of the facade, tagged with where it was
    raised: by a [raise] of one of the module's classes, by the interpreter
    in the module's code, or below the facade (inherited methods, parsers,
    converters), whose exceptions are the type [E]. *)
Inductive exn (E : Type) : Type :=
| Declared (d : declared)
| Builtin (b : builtin_exn)
| Lower (e : E).
Arguments Declared {E} d.
Arguments Builtin {E} b.
Arguments Lower {E} e.

Inductive result (X A : Type) : Type :=
| Ok (a : A)
| Raise (x : X).
Arguments Ok {X A} a.
Arguments Raise {X A} x.

(** [self.additional_headers]: [None] (the default of the constructor's
    argument) or a [dict]. *)
Inductive headers (Obj : Type) : Type :=
| HNone
| HDict (d : gmap string (PyVal Obj)).
Arguments HNone {Obj}.
Arguments HDict {Obj} d.

(** The value a header mapping holds under a name; [None] holds none. *)
Definition header {Obj : Type} (h : headers Obj) (name : string)
    : option (PyVal Obj) :=
  match h with
  | HDict d => d !! name
  | HNone => None
  end.

(** What a method can read and change: the header mapping of the handle,
    and [rest], everything else (the other attributes of the handle and the
    remote server). *)
Record state (Obj R : Type) : Type := mkState {
  additional_headers : headers Obj;
  rest : R
}.
Arguments mkState {Obj R} _ _.
Arguments additional_headers {Obj R} _.
Arguments rest {Obj R} _.

(** Computations below the facade, and computations of the facade. An
    exception keeps the changes made before it was raised. *)
Definition L (Obj E R A : Type) : Type :=
  state Obj R -> result E A * state Obj R.
Definition M (Obj E R A : Type) : Type :=
  state Obj R -> result (exn E) A * state Obj R.

(** A converter: a function "executed on the server's response". *)
Definition converter (Obj E R : Type) : Type := string -> L Obj E R (PyVal Obj).

(** [url_params]: [None] or a [dict] of URL parameters. *)
Definition url_params : Type := option (gmap string string).

Section Monad.
Context {Obj E R : Type}.

Definition ret {A} (a : A) : M Obj E R A := fun self => (Ok a, self).

Definition bind {A B} (m : M Obj E R A) (k : A -> M Obj E R B) : M Obj E R B :=
  fun self =>
    match m self with
    | (Ok a, self') => k a self'
    | (Raise x, self') => (Raise x, self')
    end.

(** The interpreter raises a built-in exception. *)
Definition raise {A} (b : builtin_exn) : M Obj E R A :=
  fun self => (Raise (Builtin b), self).

(** A call into the layer below. *)
Definition call {A} (m : L Obj E R A) : M Obj E R A :=
  fun self =>
    match m self with
    | (Ok a, self') => (Ok a, self')
    | (Raise e, self') => (Raise (Lower e), self')
    end.

(** [self.additional_headers] and [self.additional_headers = h]. *)
Definition getattr_additional_headers : M Obj E R (headers Obj) :=
  fun self => (Ok (additional_headers self), self).
Definition setattr_additional_headers (h : headers Obj) : M Obj E R unit :=
  fun self => (Ok tt, mkState h (rest self)).

(** [L]'s own sequencing, for the code below the facade. *)
Definition lret {A} (a : A) : L Obj E R A := fun self => (Ok a, self).
Definition lbind {A B} (m : L Obj E R A) (k : A -> L Obj E R B) : L Obj E R B :=
  fun self =>
    match m self with
    | (Ok a, self') => k a self'
    | (Raise e, self') => (Raise e, self')
    end.

(** A computation below the facade that leaves [additional_headers] as it
    found it, whatever it returns or raises. *)
Definition keeps_headers {A} (m : L Obj E R A) : Prop :=
  forall self, additional_headers (m self).2 = additional_headers self.
End Monad.

Declare Scope py_scope.
Delimit Scope py_scope with py.
Notation "x <- m ;; k" := (bind m (fun x => k))
  (at level 100, m at next level, right associativity) : py_scope.
Notation "m ;; k" := (bind m (fun _ => k))
  (at level 100, right associativity) : py_scope.
Local Open Scope py_scope.

(** ** What the module imports *)

(** [atom]: the class [atom.Entry] and its method [ToString]. *)
Class atom (Obj E R : Type) : Type := {
  isinstance_Entry : Obj -> bool;
  ToString : Obj -> L Obj E R string
}.

(** [gdata.base]: the parsers the facade binds as converters. *)
Class gdata_base (Obj E R : Type) : Type := {
  GBaseItemFromString : converter Obj E R;
  GBaseSnippetFromString : converter Obj E R;
  GBaseItemFeedFromString : converter Obj E R;
  GBaseSnippetFeedFromString : converter Obj E R;
  GBaseAttributesFeedFromString : converter Obj E R;
  GBaseAttributeEntryFromString : converter Obj E R;
  GBaseItemTypeEntryFromString : converter Obj E R;
  GBaseItemTypesFeedFromString : converter Obj E R;
  GBaseLocalesFeedFromString : converter Obj E R;
  GDataEntryFromString : converter Obj E R
}.

(** [gdata.service.GDataService]: the base class, with the methods the
    facade inherits and calls on [self]. *)
Class GDataService (Obj E R : Type) : Type := {
  GDataService__init__ :
    PyVal Obj -> PyVal Obj -> string -> PyVal Obj -> string -> headers Obj ->
    L Obj E R unit;
  Get : string -> option (converter Obj E R) -> L Obj E R (PyVal Obj);
  Post : PyVal Obj -> string -> url_params -> bool ->
         option (converter Obj E R) -> L Obj E R (PyVal Obj);
  Put : PyVal Obj -> string -> url_params -> bool ->
        option (converter Obj E R) -> L Obj E R (PyVal Obj);
  Delete : string -> url_params -> bool -> L Obj E R (PyVal Obj)
}.

(** ** class GBaseService(gdata.service.GDataService) *)

Section GBaseService.
Context {Obj E R : Type}.
Context `{!atom Obj E R, !gdata_base Obj E R, !GDataService Obj E R}.

Local Abbreviation M := (M Obj E R).

(** *** Expressions on Python objects *)

(** [isinstance(h, dict)] *)
Definition isinstance_dict (h : headers Obj) : bool :=
  match h with
  | HDict _ => true
  | HNone => false
  end.

(** [key not in h] *)
Definition not_in (key : string) (h : headers Obj) : M bool :=
  match h with
  | HDict d =>
      ret (match d !! key with Some _ => false | None => true end)
  | HNone => raise TypeError
  end.

(** [h[key]] *)
Definition getitem (h : headers Obj) (key : string) : M (PyVal Obj) :=
  match h with
  | HDict d =>
      match d !! key with
      | Some v => ret v
      | None => raise (KeyError key)
      end
  | HNone => raise TypeError
  end.

(** [self.additional_headers[key] = v] *)
Definition setitem_additional_headers (key : string) (v : PyVal Obj) : M unit :=
  h <- getattr_additional_headers ;;
  match h with
  | HDict d => setattr_additional_headers (HDict (<[key := v]> d))
  | HNone => raise TypeError
  end.

(** [if converter:] a function is true, [None] is false. *)
Definition truth (converter : option (converter Obj E R)) : bool :=
  match converter with
  | Some _ => true
  | None => false
  end.

(** [isinstance(v, atom.Entry)] *)
Definition isinstance_atom_Entry (v : PyVal Obj) : bool :=
  match v with
  | PyObj o => isinstance_Entry o
  | _ => false
  end.

(** [v.ToString()] *)
Definition method_ToString (v : PyVal Obj) : M string :=
  match v with
  | PyObj o => call (ToString o)
  | _ => raise AttributeError
  end.

(** [gdata.base.GBaseItemFromString(v.ToString())], the expression of
    lines 107, 165 and 214. *)
Definition reparse_as_item (v : PyVal Obj) : M (PyVal Obj) :=
  s <- method_ToString v ;;
  call (GBaseItemFromString s).

(** *** The API key (lines 64-82) *)

Definition _SetAPIKey (api_key : PyVal Obj) : M unit :=
  h <- getattr_additional_headers ;;
  (if negb (isinstance_dict h)
   then setattr_additional_headers (HDict ∅)
   else ret tt) ;;
  setitem_additional_headers "X-Google-Key" api_key.

Definition __SetAPIKey (api_key : PyVal Obj) : M unit :=
  _SetAPIKey api_key.

Definition _GetAPIKey : M (PyVal Obj) :=
  h <- getattr_additional_headers ;;
  absent <- not_in "X-Google-Key" h ;;
  if absent then ret PyNone
  else getitem h "X-Google-Key".

Definition __GetAPIKey : M (PyVal Obj) := _GetAPIKey.

(** [api_key = property(__GetAPIKey, __SetAPIKey)]: reading the attribute
    and assigning to it. The class is taken to be new-style, as a class
    that declares a property with a setter is, so that an assignment runs
    the setter. *)
Definition api_key_get : M (PyVal Obj) := __GetAPIKey.
Definition api_key_set (v : PyVal Obj) : M unit := __SetAPIKey v.

(** *** The constructor (lines 55-62) *)

Definition __init__ (email password source : PyVal Obj) (server : string)
    (api_key : PyVal Obj) (additional_headers : headers Obj) : M unit :=
  call (GDataService__init__ email password "gbase" source server
          additional_headers) ;;
  api_key_set api_key.

(** *** Queries (lines 84-138) *)

Definition Query (uri : string) (converter : option (converter Obj E R))
    : M (PyVal Obj) :=
  result <- call (Get uri converter) ;;
  if truth converter then ret result
  else if isinstance_atom_Entry result then reparse_as_item result
  else ret result.

Definition QuerySnippetsFeed (uri : string) : M (PyVal Obj) :=
  call (Get uri (Some GBaseSnippetFeedFromString)).

Definition QueryItemsFeed (uri : string) : M (PyVal Obj) :=
  call (Get uri (Some GBaseItemFeedFromString)).

Definition QueryAttributesFeed (uri : string) : M (PyVal Obj) :=
  call (Get uri (Some GBaseAttributesFeedFromString)).

Definition QueryItemTypesFeed (uri : string) : M (PyVal Obj) :=
  call (Get uri (Some GBaseItemTypesFeedFromString)).

Definition QueryLocalesFeed (uri : string) : M (PyVal Obj) :=
  call (Get uri (Some GBaseLocalesFeedFromString)).

Definition GetItem (uri : string) : M (PyVal Obj) :=
  call (Get uri (Some GBaseItemFromString)).

Definition GetSnippet (uri : string) : M (PyVal Obj) :=
  call (Get uri (Some GBaseSnippetFromString)).

Definition GetAttribute (uri : string) : M (PyVal Obj) :=
  call (Get uri (Some GBaseAttributeEntryFromString)).

Definition GetItemType (uri : string) : M (PyVal Obj) :=
  call (Get uri (Some GBaseItemTypeEntryFromString)).

Definition GetLocale (uri : string) : M (PyVal Obj) :=
  call (Get uri (Some GDataEntryFromString)).

(** *** Insert, delete, update (lines 140-215) *)

Definition InsertItem (new_item : PyVal Obj) (url_params : url_params)
    (escape_params : bool) (converter : option (converter Obj E R))
    : M (PyVal Obj) :=
  response <- call (Post new_item "/base/feeds/items" url_params
                      escape_params converter) ;;
  if negb (truth converter) && isinstance_atom_Entry response
  then reparse_as_item response
  else ret response.

(** The path [DeleteItem] hands to [self.Delete] (line 183). *)
Definition DeleteItem_path (item_id : string) : string :=
  Py.format_slash (Py.lstrip item_id "http://www.google.com/").

Definition DeleteItem (item_id : string) (url_params : url_params)
    (escape_params : bool) : M (PyVal Obj) :=
  call (Delete (DeleteItem_path item_id) url_params escape_params).

Definition UpdateItem (item_id : string) (updated_item : PyVal Obj)
    (url_params : url_params) (escape_params : bool)
    (converter : option (converter Obj E R)) : M (PyVal Obj) :=
  response <- call (Put updated_item item_id url_params escape_params
                      converter) ;;
  if negb (truth converter) && isinstance_atom_Entry response
  then reparse_as_item response
  else ret response.

(** *** The operations as data *)

(** A call of one public operation of the class, with its arguments. *)
Inductive op : Type :=
| op_init (email password source : PyVal Obj) (server : string)
          (api_key : PyVal Obj) (additional_headers : headers Obj)
| op_api_key_get
| op_api_key_set (v : PyVal Obj)
| op_Query (uri : string) (converter : option (converter Obj E R))
| op_QuerySnippetsFeed (uri : string)
| op_QueryItemsFeed (uri : string)
| op_QueryAttributesFeed (uri : string)
| op_QueryItemTypesFeed (uri : string)
| op_QueryLocalesFeed (uri : string)
| op_GetItem (uri : string)
| op_GetSnippet (uri : string)
| op_GetAttribute (uri : string)
| op_GetItemType (uri : string)
| op_GetLocale (uri : string)
| op_InsertItem (new_item : PyVal Obj) (url_params : url_params)
                (escape_params : bool) (converter : option (converter Obj E R))
| op_DeleteItem (item_id : string) (url_params : url_params)
                (escape_params : bool)
| op_UpdateItem (item_id : string) (updated_item : PyVal Obj)
                (url_params : url_params) (escape_params : bool)
                (converter : option (converter Obj E R)).

(** A method without a [return] returns [None]. *)
Definition returns_None (m : M unit) : M (PyVal Obj) :=
  m ;; ret PyNone.

Definition run (o : op) : M (PyVal Obj) :=
  match o with
  | op_init email password source server api_key hs =>
      returns_None (__init__ email password source server api_key hs)
  | op_api_key_get => api_key_get
  | op_api_key_set v => returns_None (api_key_set v)
  | op_Query uri converter => Query uri converter
  | op_QuerySnippetsFeed uri => QuerySnippetsFeed uri
  | op_QueryItemsFeed uri => QueryItemsFeed uri
  | op_QueryAttributesFeed uri => QueryAttributesFeed uri
  | op_QueryItemTypesFeed uri => QueryItemTypesFeed uri
  | op_QueryLocalesFeed uri => QueryLocalesFeed uri
  | op_GetItem uri => GetItem uri
  | op_GetSnippet uri => GetSnippet uri
  | op_GetAttribute uri => GetAttribute uri
  | op_GetItemType uri => GetItemType uri
  | op_GetLocale uri => GetLocale uri
  | op_InsertItem new_item url_params escape_params converter =>
      InsertItem new_item url_params escape_params converter
  | op_DeleteItem item_id url_params escape_params =>
      DeleteItem item_id url_params escape_params
  | op_UpdateItem item_id updated_item url_params escape_params converter =>
      UpdateItem item_id updated_item url_params escape_params converter
  end.

(** The inherited method an operation starts with, when it has one. *)
Definition inherited_call (o : op) : option (L Obj E R (PyVal Obj)) :=
  match o with
  | op_init email password source server _ hs =>
      Some (lbind (GDataService__init__ email password "gbase" source
                     server hs) (fun _ => lret PyNone))
  | op_api_key_get | op_api_key_set _ => None
  | op_Query uri converter => Some (Get uri converter)
  | op_QuerySnippetsFeed uri => Some (Get uri (Some GBaseSnippetFeedFromString))
  | op_QueryItemsFeed uri => Some (Get uri (Some GBaseItemFeedFromString))
  | op_QueryAttributesFeed uri =>
      Some (Get uri (Some GBaseAttributesFeedFromString))
  | op_QueryItemTypesFeed uri =>
      Some (Get uri (Some GBaseItemTypesFeedFromString))
  | op_QueryLocalesFeed uri => Some (Get uri (Some GBaseLocalesFeedFromString))
  | op_GetItem uri => Some (Get uri (Some GBaseItemFromString))
  | op_GetSnippet uri => Some (Get uri (Some GBaseSnippetFromString))
  | op_GetAttribute uri => Some (Get uri (Some GBaseAttributeEntryFromString))
  | op_GetItemType uri => Some (Get uri (Some GBaseItemTypeEntryFromString))
  | op_GetLocale uri => Some (Get uri (Some GDataEntryFromString))
  | op_InsertItem new_item url_params escape_params converter =>
      Some (Post new_item "/base/feeds/items" url_params escape_params
              converter)
  | op_DeleteItem item_id url_params escape_params =>
      Some (Delete (DeleteItem_path item_id) url_params escape_params)
  | op_UpdateItem item_id updated_item url_params escape_params converter =>
      Some (Put updated_item item_id url_params escape_params converter)
  end.

(** Operations that were given no converter. *)
Definition without_converter (o : op) : bool :=
  match o with
  | op_Query _ None | op_InsertItem _ _ _ None | op_UpdateItem _ _ _ _ None =>
      true
  | _ => false
  end.

(** Operations that assign to [additional_headers] themselves: the
    constructor, through the property, and the assignment to [api_key]. *)
Definition assigns_headers (o : op) : bool :=
  match o with
  | op_init _ _ _ _ _ _ | op_api_key_set _ => true
  | _ => false
  end.

(** *** The response policy in the specification's words *)

(** "If a converter is supplied, returns its result; otherwise, if the raw
    result looks like a generic entry, re-parses it through the item
    parser; else returns the raw result unchanged." [response] is what
    the inherited method returned. *)
Definition response_policy (converter : option (converter Obj E R))
    (response : PyVal Obj) : M (PyVal Obj) :=
  match converter with
  | Some _ => ret response
  | None =>
      if isinstance_atom_Entry response
      then (s <- method_ToString response ;; call (GBaseItemFromString s))
      else ret response
  end.

End GBaseService.

(** ** The inherited methods, one HTTP exchange each *)

Inductive http_method : Type := GET | POST | PUT | DELETE.

Record request (Obj : Type) : Type := mkRequest {
  req_method : http_method;
  req_uri : string;
  req_data : option (PyVal Obj);
  req_url_params : url_params;
  req_escape_params : bool
}.
Arguments mkRequest {Obj} _ _ _ _ _.
Arguments req_method {Obj} _.
Arguments req_uri {Obj} _.
Arguments req_data {Obj} _.

(** What lies under [GDataService]: sending one request and reading the
    body of the server's response (or raising), the parse applied to a body
    when the caller gave no converter, and the base constructor. *)
Class transport (Obj E R : Type) : Type := {
  HttpRequest : request Obj -> L Obj E R string;
  ParseDefault : converter Obj E R;
  InitHandle :
    PyVal Obj -> PyVal Obj -> string -> PyVal Obj -> string -> headers Obj ->
    L Obj E R unit
}.

Section Wire.
Context {Obj E R : Type} `{!transport Obj E R}.

(** The converter "executed on the server's response". *)
Definition convert (c : option (converter Obj E R)) (body : string)
    : L Obj E R (PyVal Obj) :=
  match c with
  | Some c => c body
  | None => ParseDefault body
  end.

(** Modelled from the spec: [gdata.service.GDataService], the base class
    of the facade, is not under src/. "Each operation issues one HTTP
    request and waits for the response"; a converter is "a caller-supplied
    function mapping a raw response into a typed object", "executed on
    the server's response before it is returned"; [Delete] returns "True
    if the delete succeeded"; "all failures (network, auth, parse) are
    raised as exceptions by the underlying transport". *)
Definition wire_Get (uri : string) (c : option (converter Obj E R))
    : L Obj E R (PyVal Obj) :=
  lbind (HttpRequest (mkRequest GET uri None None true)) (convert c).

Definition wire_Post (data : PyVal Obj) (uri : string) (ps : url_params)
    (escape : bool) (c : option (converter Obj E R)) : L Obj E R (PyVal Obj) :=
  lbind (HttpRequest (mkRequest POST uri (Some data) ps escape)) (convert c).

Definition wire_Put (data : PyVal Obj) (uri : string) (ps : url_params)
    (escape : bool) (c : option (converter Obj E R)) : L Obj E R (PyVal Obj) :=
  lbind (HttpRequest (mkRequest PUT uri (Some data) ps escape)) (convert c).

Definition wire_Delete (uri : string) (ps : url_params) (escape : bool)
    : L Obj E R (PyVal Obj) :=
  lbind (HttpRequest (mkRequest DELETE uri None ps escape))
        (fun _ => lret (PyBool true)).

#[global] Instance wire : GDataService Obj E R := {|
  GDataService__init__ := InitHandle;
  Get := wire_Get;
  Post := wire_Post;
  Put := wire_Put;
  Delete := wire_Delete
|}.
End Wire.

(** ** class BaseQuery(gdata.service.Query) *)

Module BaseQuery.
Section BaseQuery.
Context {V : Type}.

(** Modelled from the spec: the base class [gdata.service.Query] is not
    under src/. "A mapping from string keys to string values representing
    URL query parameters [...] otherwise behaves as a plain key/value
    container": the item access and item assignment of a [dict]. *)
Definition getitem (self : gmap string V) (key : string)
    : result builtin_exn V :=
  match self !! key with
  | Some v => Ok v
  | None => Raise (KeyError key)
  end.

Definition setitem (self : gmap string V) (key : string) (v : V)
    : gmap string V :=
  <[key := v]> self.

(** Lines 220-227. *)
Definition _GetBaseQuery (self : gmap string V) : result builtin_exn V :=
  getitem self "bq".

Definition _SetBaseQuery (self : gmap string V) (base_query : V)
    : gmap string V :=
  setitem self "bq" base_query.

(** [bq = property(_GetBaseQuery, _SetBaseQuery)] *)
Definition bq_get (self : gmap string V) : result builtin_exn V :=
  _GetBaseQuery self.
Definition bq_set (self : gmap string V) (v : V) : gmap string V :=
  _SetBaseQuery self v.
End BaseQuery.
End BaseQuery.

(** ** A canned server, to run the facade on *)

Module Demo.

Inductive obj : Type :=
| Entry (xml : string)      (* an atom.Entry *)
| Item (xml : string)       (* a GBaseItem, which is an atom.Entry *)
| Feed (xml : string)       (* a feed *)
| Element (xml : string).   (* an ElementTree element *)

Inductive err : Type :=
| HttpStatus (status : nat)
| Malformed.

(** The requests sent so far, newest first. *)
Definition world : Type := list (http_method * string).

Definition respond (m : http_method) (uri : string) : result err string :=
  match m with
  | GET =>
      if String.eqb uri "/base/feeds/items/1" then Ok "<entry>1</entry>"
      else if String.eqb uri "/base/feeds/items/0" then Ok "<entry/>"
      else if String.eqb uri "/base/feeds/items/9" then Ok "<entry"
      else if String.eqb uri "/base/feeds/snippets" then Ok "<feed/>"
      else if String.eqb uri "/base/feeds/robots" then Ok "User-agent: *"
      else Raise (HttpStatus 404)
  | POST =>
      if String.eqb uri "/base/feeds/items" then Ok "<entry>2</entry>"
      else Raise (HttpStatus 404)
  | PUT =>
      if String.eqb uri "http://www.google.com/base/feeds/items/1"
      then Ok "<entry>1b</entry>"
      else Raise (HttpStatus 404)
  | DELETE =>
      if String.eqb uri "/base/feeds/items/1" then Ok ""
      else Raise (HttpStatus 404)
  end.

Definition send (r : request obj) : L obj err world string :=
  fun self =>
    (respond (req_method r) (req_uri r),
     mkState (additional_headers self)
             ((req_method r, req_uri r) :: rest self)).

(** The typed parsers want a whole element; the default parse looks at
    the start of the body only. *)
Definition parse_entry (wrap : string -> obj) : converter obj err world :=
  fun body self =>
    if Py.startswith body "<entry>" then (Ok (PyObj (wrap body)), self)
    else (Raise Malformed, self).

Definition parse_feed : converter obj err world :=
  fun body self =>
    if Py.startswith body "<feed" then (Ok (PyObj (Feed body)), self)
    else (Raise Malformed, self).

Definition parse_default : converter obj err world :=
  fun body self =>
    if Py.startswith body "<feed" then (Ok (PyObj (Feed body)), self)
    else if Py.startswith body "<entry" then (Ok (PyObj (Entry body)), self)
    else (Ok (PyStr body), self).

Definition xml_of (o : obj) : string :=
  match o with
  | Entry x | Item x | Feed x | Element x => x
  end.

(** An empty entry has no string form here. *)
Definition to_string (o : obj) : L obj err world string :=
  fun self =>
    if String.eqb (xml_of o) "<entry/>" then (Raise Malformed, self)
    else (Ok (xml_of o), self).

Definition is_entry (o : obj) : bool :=
  match o with
  | Entry _ | Item _ => true
  | Feed _ | Element _ => false
  end.

(** The base constructor stores the headers it is given. *)
Definition base_init (email password : PyVal obj) (service : string)
    (source : PyVal obj) (server : string) (hs : headers obj)
    : L obj err world unit :=
  fun self => (Ok tt, mkState hs (rest self)).

#[global] Instance demo_atom : atom obj err world := {|
  isinstance_Entry := is_entry;
  ToString := to_string
|}.

#[global] Instance demo_gdata_base : gdata_base obj err world := {|
  GBaseItemFromString := parse_entry Item;
  GBaseSnippetFromString := parse_entry Item;
  GBaseItemFeedFromString := parse_feed;
  GBaseSnippetFeedFromString := parse_feed;
  GBaseAttributesFeedFromString := parse_feed;
  GBaseAttributeEntryFromString := parse_entry Entry;
  GBaseItemTypeEntryFromString := parse_entry Entry;
  GBaseItemTypesFeedFromString := parse_feed;
  GBaseLocalesFeedFromString := parse_feed;
  GDataEntryFromString := parse_entry Entry
|}.

#[global] Instance demo_transport : transport obj err world := {|
  HttpRequest := send;
  ParseDefault := parse_default;
  InitHandle := base_init
|}.

(** A handle before its constructor ran, and a constructed one. *)
Definition blank : state obj world := mkState HNone [].

Definition fresh : state obj world :=
  (__init__ PyNone PyNone PyNone "base.google.com" PyNone HNone blank).2.

(** Operations on this server's handles. *)
Definition operation : Type := @op obj err world.

(** A handle built with headers of the caller's, one of them an API
    key. *)
Definition own_headers : gmap string (PyVal obj) :=
  <[ "X-Google-Key" := PyStr "old" ]> {[ "User-Agent" := PyStr "demo" ]}.

Definition keyed : state obj world :=
  (__init__ PyNone PyNone PyNone "base.google.com" PyNone (HDict own_headers)
     blank).2.

(** A handle whose header mapping is an empty [dict]. *)
Definition bare : state obj world := mkState (HDict ∅) [].

(** [self] after one more request. *)
Definition sent (m : http_method) (uri : string) (self : state obj world)
    : state obj world :=
  mkState (additional_headers self) ((m, uri) :: rest self).

(** A converter of the caller's. *)
Definition shout : converter obj err world :=
  fun body self => (Ok (PyStr ("got " ++ body)), self).

End Demo.

(** * Properties *)

(** ** Python built-ins *)

Lemma lstrip_app_all (p s chars : string) :
  Py.lstrip p chars = EmptyString ->
  Py.lstrip (p ++ s) chars = Py.lstrip s chars.
Proof.
  induction p as [|c p IH]; simpl; [reflexivity|].
  destruct (Py.char_in c chars); [exact IH | discriminate].
Qed.

Lemma lstrip_stops (c : ascii) (s chars : string) :
  Py.char_in c chars = false ->
  Py.lstrip (String c s) chars = String c s.
Proof. intros H. simpl. rewrite H. reflexivity. Qed.

(** What line 183 computes for an ID that starts with the host prefix: the
    prefix goes, and so does every following character that occurs in it. *)
Lemma DeleteItem_path_prefixed (rest : string) :
  DeleteItem_path ("http://www.google.com/" ++ rest)
  = "/" ++ Py.lstrip rest "http://www.google.com/".
Proof.
  unfold DeleteItem_path, Py.format_slash.
  rewrite lstrip_app_all; reflexivity.
Qed.

(** X12. The IDs of the docstring,
    [http://www.google.com/base/feeds/items/<n>], lose the host prefix and
    nothing else, for every [n]: [b] does not occur in the prefix. *)
Lemma DeleteItem_path_base_feeds_items (n : string) :
  DeleteItem_path ("http://www.google.com/base/feeds/items/" ++ n)
  = "/base/feeds/items/" ++ n.
Proof.
  change ("http://www.google.com/base/feeds/items/" ++ n)
    with ("http://www.google.com/" ++ String "b" ("ase/feeds/items/" ++ n)).
  rewrite DeleteItem_path_prefixed, lstrip_stops; reflexivity.
Qed.

Example DeleteItem_path_doc :
  DeleteItem_path "http://www.google.com/base/feeds/items/13185446517496042648"
  = "/base/feeds/items/13185446517496042648".
Proof. reflexivity. Qed.

(** C1 (where the code departs from the claim). For the item ID
    [http://www.google.com/help/1], which starts with the host prefix,
    [DeleteItem] does not delete at [/help/1], the remainder of the ID
    after the prefix: [lstrip] takes its argument as a set of characters,
    the letters of [help/] all occur in it, and the delete is issued at
    [/1]. *)
Theorem DeleteItem_strips_characters_not_prefix :
  DeleteItem_path "http://www.google.com/help/1" = "/1"
  /\ DeleteItem_path "http://www.google.com/help/1" <> "/help/1"
  /\ rest (DeleteItem "http://www.google.com/help/1" None true Demo.fresh).2
     = [(DELETE, "/1")].
Proof.
  split; [reflexivity|]. split; [discriminate|]. reflexivity.
Qed.

(** ** The monad *)

Section MonadFacts.
Context {Obj E R : Type}.

Lemma bind_ok {A B} (m : M Obj E R A) (k : A -> M Obj E R B) self a self' :
  m self = (Ok a, self') -> bind m k self = k a self'.
Proof. intros H. unfold bind. rewrite H. reflexivity. Qed.

Lemma bind_raise {A B} (m : M Obj E R A) (k : A -> M Obj E R B) self x self' :
  m self = (Raise x, self') -> bind m k self = (Raise x, self').
Proof. intros H. unfold bind. rewrite H. reflexivity. Qed.

Lemma call_ok {A} (m : L Obj E R A) self a self' :
  m self = (Ok a, self') -> call m self = (Ok a, self').
Proof. intros H. unfold call. rewrite H. reflexivity. Qed.

Lemma call_raise {A} (m : L Obj E R A) self e self' :
  m self = (Raise e, self') -> call m self = (Raise (Lower e), self').
Proof. intros H. unfold call. rewrite H. reflexivity. Qed.

(** Whatever leaves a call into the layer below was raised there. *)
Lemma call_raises_lower {A} (m : L Obj E R A) self x self' :
  call m self = (Raise x, self') ->
  exists e, x = Lower e /\ m self = (Raise e, self').
Proof.
  unfold call. destruct (m self) as [[a|e] s]; intros H; inversion H.
  exists e. split; reflexivity.
Qed.

Lemma bind_ret_r {A} (m : M Obj E R A) self : bind m ret self = m self.
Proof. unfold bind, ret. destruct (m self) as [[a|x] s]; reflexivity. Qed.

(** An exception out of a sequence comes out of its first part, or out
    of the second run after the first. *)
Lemma bind_raises {A B} (m : M Obj E R A) (k : A -> M Obj E R B) self x self' :
  bind m k self = (Raise x, self') ->
  m self = (Raise x, self')
  \/ exists a self1, m self = (Ok a, self1) /\ k a self1 = (Raise x, self').
Proof.
  unfold bind. destruct (m self) as [[a|y] s]; intros H.
  - right. exists a, s. split; [reflexivity | exact H].
  - left. inversion H. reflexivity.
Qed.
End MonadFacts.

(** ** The facade over any base class *)

Section FacadeFacts.
Context {Obj E R : Type}.
Context `{!atom Obj E R, !gdata_base Obj E R, !GDataService Obj E R}.

Implicit Types (self : state Obj R) (uri : string) (r v : PyVal Obj).
Implicit Types (c : converter Obj E R).

Lemma isinstance_atom_Entry_obj r :
  isinstance_atom_Entry r = true ->
  exists o, r = PyObj o /\ isinstance_Entry o = true.
Proof. destruct r; simpl; try discriminate. eauto. Qed.

(** With a converter, the three methods that take one hand back what the
    inherited method returned. *)
Lemma Query_with_converter uri c self :
  Query uri (Some c) self = call (Get uri (Some c)) self.
Proof. unfold Query. simpl. apply bind_ret_r. Qed.

Lemma InsertItem_with_converter new_item ps esc c self :
  InsertItem new_item ps esc (Some c) self
  = call (Post new_item "/base/feeds/items" ps esc (Some c)) self.
Proof. unfold InsertItem. simpl. apply bind_ret_r. Qed.

Lemma UpdateItem_with_converter item_id updated_item ps esc c self :
  UpdateItem item_id updated_item ps esc (Some c) self
  = call (Put updated_item item_id ps esc (Some c)) self.
Proof. unfold UpdateItem. simpl. apply bind_ret_r. Qed.

(** C3. [Query(uri)] without a converter: when [Get] returned an
    [atom.Entry], the result is [GBaseItemFromString] applied to the
    entry's [ToString()]; when [Get] returned anything else, the result is
    that same value, and the handle is as [Get] left it. *)
Theorem Query_without_converter uri self r self1 :
  Get uri None self = (Ok r, self1) ->
  (isinstance_atom_Entry r = true ->
     exists o, r = PyObj o /\
       Query uri None self
       = (s <- call (ToString o) ;; call (GBaseItemFromString s)) self1)
  /\ (isinstance_atom_Entry r = false -> Query uri None self = (Ok r, self1)).
Proof.
  intros HGet. split; intros Hr.
  - destruct (isinstance_atom_Entry_obj r Hr) as (o & -> & Ho).
    exists o. split; [reflexivity|].
    unfold Query. rewrite (bind_ok _ _ _ _ _ (call_ok _ _ _ _ HGet)).
    simpl. rewrite Ho. reflexivity.
  - unfold Query. rewrite (bind_ok _ _ _ _ _ (call_ok _ _ _ _ HGet)).
    simpl. rewrite Hr. reflexivity.
Qed.

(** The source's two spellings of the policy agree with the
    specification's. *)
Lemma Query_policy uri (conv : option (converter Obj E R)) self :
  Query uri conv self
  = (result <- call (Get uri conv) ;; response_policy conv result) self.
Proof.
  unfold Query, response_policy, reparse_as_item, bind.
  destruct (call (Get uri conv) self) as [[r|x] s]; [|reflexivity].
  destruct conv; reflexivity.
Qed.

Lemma Insert_Update_follow_policy
    (new_item updated_item : PyVal Obj) (item_id : string)
    (ps : url_params) (esc : bool) (conv : option (converter Obj E R)) self :
  InsertItem new_item ps esc conv self
  = (response <- call (Post new_item "/base/feeds/items" ps esc conv) ;;
     response_policy conv response) self
  /\ UpdateItem item_id updated_item ps esc conv self
     = (response <- call (Put updated_item item_id ps esc conv) ;;
        response_policy conv response) self.
Proof.
  split.
  - unfold InsertItem, response_policy, reparse_as_item, bind.
    destruct (call _ self) as [[r|x] s]; [|reflexivity].
    destruct conv; simpl; [reflexivity|].
    destruct (isinstance_atom_Entry r); reflexivity.
  - unfold UpdateItem, response_policy, reparse_as_item, bind.
    destruct (call _ self) as [[r|x] s]; [|reflexivity].
    destruct conv; simpl; [reflexivity|].
    destruct (isinstance_atom_Entry r); reflexivity.
Qed.

(** C5. [InsertItem] posts the new item to [/base/feeds/items] and
    [UpdateItem] puts the updated item to the item ID it was given, as it
    is; each then returns the response when a converter was given (it is
    the converter's output), else the re-parse through
    [GBaseItemFromString] when the response is an [atom.Entry], else the
    response unchanged: the policy of [Query]. *)
Theorem InsertItem_UpdateItem_policy
    (new_item updated_item : PyVal Obj) (item_id uri : string)
    (ps : url_params) (esc : bool) (conv : option (converter Obj E R)) self :
  InsertItem new_item ps esc conv self
  = (response <- call (Post new_item "/base/feeds/items" ps esc conv) ;;
     response_policy conv response) self
  /\ UpdateItem item_id updated_item ps esc conv self
     = (response <- call (Put updated_item item_id ps esc conv) ;;
        response_policy conv response) self
  /\ Query uri conv self
     = (result <- call (Get uri conv) ;; response_policy conv result) self.
Proof.
  destruct (Insert_Update_follow_policy new_item updated_item item_id
              ps esc conv self) as [HI HU].
  split; [exact HI|]. split; [exact HU|]. apply Query_policy.
Qed.

(** C7. Each typed wrapper is [Get(uri, converter=...)] with its own
    fixed parser: the five feed queries with the matching feed parser,
    the five single-entry getters with a single-entry parser. So each
    returns what [Query] returns for that parser as converter. *)
Theorem typed_wrappers_are_Get_with_fixed_converter uri self :
  let is_Get_with (wrapper : string -> M Obj E R (PyVal Obj)) c :=
    wrapper uri self = call (Get uri (Some c)) self
    /\ wrapper uri self = Query uri (Some c) self in
  is_Get_with QuerySnippetsFeed GBaseSnippetFeedFromString
  /\ is_Get_with QueryItemsFeed GBaseItemFeedFromString
  /\ is_Get_with QueryAttributesFeed GBaseAttributesFeedFromString
  /\ is_Get_with QueryItemTypesFeed GBaseItemTypesFeedFromString
  /\ is_Get_with QueryLocalesFeed GBaseLocalesFeedFromString
  /\ is_Get_with GetItem GBaseItemFromString
  /\ is_Get_with GetSnippet GBaseSnippetFromString
  /\ is_Get_with GetAttribute GBaseAttributeEntryFromString
  /\ is_Get_with GetItemType GBaseItemTypeEntryFromString
  /\ is_Get_with GetLocale GDataEntryFromString.
Proof.
  intros is_Get_with. subst is_Get_with. cbv beta.
  repeat split; try (symmetry; apply Query_with_converter).
Qed.

(** *** The API key *)

(** The setter never raises; it leaves a [dict] that binds the header
    name, over the entries of the [dict] that was there, if one was. *)
Lemma _SetAPIKey_spec v self :
  _SetAPIKey (E:=E) v self
  = (Ok tt,
     mkState (HDict (<["X-Google-Key" := v]>
                       (match additional_headers self with
                        | HDict d => d
                        | HNone => ∅
                        end)))
             (rest self)).
Proof. destruct self as [[|d] w]; reflexivity. Qed.

Lemma _GetAPIKey_dict (d : gmap string (PyVal Obj)) (w : R) :
  _GetAPIKey (E:=E) (mkState (HDict d) w)
  = (Ok (match d !! "X-Google-Key" with Some v => v | None => PyNone end),
     mkState (HDict d) w).
Proof.
  unfold _GetAPIKey, bind, getattr_additional_headers, not_in, getitem, ret.
  simpl. destruct (d !! "X-Google-Key"); reflexivity.
Qed.

Lemma _GetAPIKey_None (w : R) :
  _GetAPIKey (Obj:=Obj) (E:=E) (mkState HNone w) = (Raise (Builtin TypeError), mkState HNone w).
Proof. reflexivity. Qed.

(** C4. Assigning [v] to [api_key] and reading [api_key] back gives [v]:
    the assignment succeeds and stores [v] under [X-Google-Key] in
    [additional_headers], where the read finds it. When
    [additional_headers] is a mapping without that name, the read gives
    [None]. *)
Theorem api_key_set_get v self :
  (exists self',
      api_key_set (E:=E) v self = (Ok tt, self')
      /\ (exists d, additional_headers self' = HDict d
                    /\ d !! "X-Google-Key" = Some v)
      /\ api_key_get (E:=E) self' = (Ok v, self'))
  /\ (forall d, additional_headers self = HDict d ->
                d !! "X-Google-Key" = None ->
                api_key_get (E:=E) self = (Ok PyNone, self)).
Proof.
  split.
  - eexists. split; [apply _SetAPIKey_spec|]. split.
    + eexists. split; [reflexivity|]. apply lookup_insert_eq.
    + unfold api_key_get, __GetAPIKey. rewrite _GetAPIKey_dict.
      rewrite lookup_insert_eq. reflexivity.
  - intros d Hd Hk. destruct self as [h w]. simpl in Hd. subst h.
    unfold api_key_get, __GetAPIKey. rewrite _GetAPIKey_dict, Hk.
    reflexivity.
Qed.

(** C9. When [__init__] has completed, whatever [api_key] it was given
    ([None], the default, included), [additional_headers] is a [dict]
    that binds [X-Google-Key], to that [api_key], and reading [api_key]
    gives it back. So after a construction without a key the name is
    bound to [None]: [api_key] reads [None] although the name is
    present. *)
Theorem init_binds_header_name
    (email password source : PyVal Obj) (server : string)
    (api_key : PyVal Obj) (hs : headers Obj) self self' :
  __init__ email password source server api_key hs self = (Ok tt, self') ->
  (exists d, additional_headers self' = HDict d
             /\ d !! "X-Google-Key" = Some api_key)
  /\ api_key_get (E:=E) self' = (Ok api_key, self')
  /\ (api_key = PyNone ->
      api_key_get (E:=E) self' = (Ok PyNone, self')
      /\ exists d, additional_headers self' = HDict d
                   /\ is_Some (d !! "X-Google-Key")).
Proof.
  intros Hinit.
  assert (Hd : exists d, additional_headers self' = HDict d
                         /\ d !! "X-Google-Key" = Some api_key).
  { unfold __init__, api_key_set, __SetAPIKey, bind in Hinit.
    destruct (call _ self) as [[[]|x] s1]; [|discriminate].
    rewrite _SetAPIKey_spec in Hinit. inversion Hinit; subst; simpl.
    eexists. split; [reflexivity|]. apply lookup_insert_eq. }
  assert (Hget : api_key_get (E:=E) self' = (Ok api_key, self')).
  { destruct Hd as (d & Hd & Hk). destruct self' as [h w].
    simpl in Hd. subst h.
    unfold api_key_get, __GetAPIKey. rewrite _GetAPIKey_dict, Hk.
    reflexivity. }
  split; [exact Hd|]. split; [exact Hget|].
  intros ->. split; [exact Hget|].
  destruct Hd as (d & Hd & Hk). exists d. split; [exact Hd|].
  rewrite Hk. eauto.
Qed.

(** *** Exceptions *)

Lemma reparse_as_item_obj (ob : Obj) self :
  reparse_as_item (PyObj ob) self
  = (s <- call (ToString ob) ;; call (GBaseItemFromString s)) self.
Proof. reflexivity. Qed.

(** The re-parse of an entry raises only what [ToString] or
    [GBaseItemFromString] raised. *)
Lemma reparse_as_item_raises r self x self' :
  isinstance_atom_Entry r = true ->
  reparse_as_item r self = (Raise x, self') ->
  exists e, x = Lower e.
Proof.
  intros Hr H. destruct (isinstance_atom_Entry_obj r Hr) as (ob & -> & _).
  rewrite reparse_as_item_obj in H.
  destruct (bind_raises _ _ _ _ _ H) as [H1 | (s & self1 & _ & H2)].
  - destruct (call_raises_lower _ _ _ _ H1) as (e & -> & _). eauto.
  - destruct (call_raises_lower _ _ _ _ H2) as (e & -> & _). eauto.
Qed.

Lemma response_policy_raises conv r self x self' :
  response_policy conv r self = (Raise x, self') ->
  exists e, x = Lower e.
Proof.
  unfold response_policy. destruct conv; [discriminate|].
  destruct (isinstance_atom_Entry r) eqn:Hr; [|discriminate].
  apply (reparse_as_item_raises r); exact Hr.
Qed.

Lemma call_then_policy_raises (m : L Obj E R (PyVal Obj)) conv self x self' :
  (response <- call m ;; response_policy conv response) self
  = (Raise x, self') ->
  exists e, x = Lower e.
Proof.
  intros H.
  destruct (bind_raises _ _ _ _ _ H) as [H1 | (r & self1 & _ & H2)].
  - destruct (call_raises_lower _ _ _ _ H1) as (e & -> & _). eauto.
  - exact (response_policy_raises _ _ _ _ _ H2).
Qed.

Lemma call_raises_some_lower {A} (m : L Obj E R A) self x self' :
  call m self = (Raise x, self') -> exists e, x = Lower e.
Proof.
  intros H. destruct (call_raises_lower _ _ _ _ H) as (e & -> & _). eauto.
Qed.

(** Where an exception that leaves an operation was raised: below the
    facade, or by the interpreter reading [api_key] on a handle whose
    [additional_headers] is [None]. *)
Lemma run_raises (o : @op Obj E R) self x self' :
  run o self = (Raise x, self') ->
  (exists e, x = Lower e) \/ (o = op_api_key_get /\ x = Builtin TypeError).
Proof.
  destruct o as [em pw src srv key hs | | v | uri conv
                | uri | uri | uri | uri | uri | uri | uri | uri | uri | uri
                | new_item ps esc conv | item_id ps esc
                | item_id updated_item ps esc conv];
    simpl; intros H;
    try (left; exact (call_raises_some_lower _ _ _ _ H)).
  - (* __init__ *)
    left. unfold returns_None, __init__, api_key_set, __SetAPIKey in H.
    destruct (bind_raises _ _ _ _ _ H) as [H1 | (u & s1 & _ & H2)];
      [|discriminate].
    destruct (bind_raises _ _ _ _ _ H1) as [H3 | (u & s1 & _ & H4)].
    + exact (call_raises_some_lower _ _ _ _ H3).
    + rewrite _SetAPIKey_spec in H4. discriminate.
  - (* reading api_key *)
    right. split; [reflexivity|].
    unfold api_key_get, __GetAPIKey in H. destruct self as [[|d] w].
    + rewrite _GetAPIKey_None in H. inversion H. reflexivity.
    + rewrite _GetAPIKey_dict in H. discriminate.
  - (* assigning api_key *)
    unfold returns_None, api_key_set, __SetAPIKey, bind in H.
    rewrite _SetAPIKey_spec in H. discriminate.
  - (* Query *)
    left. rewrite Query_policy in H.
    exact (call_then_policy_raises _ _ _ _ _ H).
  - (* InsertItem *)
    left.
    rewrite (proj1 (Insert_Update_follow_policy new_item new_item ""
                      ps esc conv self)) in H.
    exact (call_then_policy_raises _ _ _ _ _ H).
  - (* UpdateItem *)
    left.
    rewrite (proj2 (Insert_Update_follow_policy updated_item
                      updated_item item_id ps esc conv self)) in H.
    exact (call_then_policy_raises _ _ _ _ _ H).
Qed.

(** An exception out of the inherited method an operation starts with
    leaves the operation as it is, with the handle as the method left
    it. *)
Lemma run_inherited_raises (o : @op Obj E R) self m e self' :
  inherited_call o = Some m ->
  m self = (Raise e, self') ->
  run o self = (Raise (Lower e), self').
Proof.
  intros Hm He.
  destruct o as [em pw src srv key hs | | v | uri conv
                | uri | uri | uri | uri | uri | uri | uri | uri | uri | uri
                | new_item ps esc conv | item_id ps esc
                | item_id updated_item ps esc conv];
    simpl in Hm; inversion Hm; subst m; clear Hm; simpl;
    try (apply call_raise; exact He).
  - (* __init__ *)
    unfold returns_None, __init__.
    apply bind_raise, bind_raise, call_raise.
    unfold lbind in He.
    destruct (GDataService__init__ em pw "gbase" src srv hs self)
      as [[u|e'] s1]; [discriminate|].
    inversion He. reflexivity.
  - (* Query *)
    unfold Query. apply bind_raise, call_raise. exact He.
  - (* InsertItem *)
    unfold InsertItem. apply bind_raise, call_raise. exact He.
  - (* UpdateItem *)
    unfold UpdateItem. apply bind_raise, call_raise. exact He.
Qed.

(** When the inherited method returned an entry to an operation that was
    given no converter, the operation is the re-parse of the entry. *)
Lemma run_without_converter (o : @op Obj E R) self m ob self1 :
  inherited_call o = Some m ->
  without_converter o = true ->
  m self = (Ok (PyObj ob), self1) ->
  isinstance_Entry ob = true ->
  run o self = (s <- call (ToString ob) ;; call (GBaseItemFromString s)) self1.
Proof.
  intros Hm Hc Hr Hob.
  destruct o as [em pw src srv key hs | | v | uri [conv|]
                | uri | uri | uri | uri | uri | uri | uri | uri | uri | uri
                | new_item ps esc [conv|] | item_id ps esc
                | item_id updated_item ps esc [conv|]];
    simpl in Hc; try discriminate;
    simpl in Hm; inversion Hm; subst m; clear Hm; simpl.
  - unfold Query.
    rewrite (bind_ok _ _ _ _ _ (call_ok _ _ _ _ Hr)). simpl.
    rewrite Hob. reflexivity.
  - unfold InsertItem.
    rewrite (bind_ok _ _ _ _ _ (call_ok _ _ _ _ Hr)). simpl.
    rewrite Hob. reflexivity.
  - unfold UpdateItem.
    rewrite (bind_ok _ _ _ _ _ (call_ok _ _ _ _ Hr)). simpl.
    rewrite Hob. reflexivity.
Qed.

(** C6. For every operation of the facade: an exception raised by the
    inherited method it calls leaves the operation unchanged, with the
    handle as that one call left it (nothing is caught, translated or
    tried again); so does an exception raised by [ToString] or by
    [GBaseItemFromString] in the re-parse of an entry; and every exception
    that leaves an operation was raised below the facade, but for the
    [TypeError] of reading [api_key] over a [None] header mapping: never
    [Error], never [RequestError]. *)
Theorem facade_propagates_exceptions (o : @op Obj E R) self :
  (forall m e self',
      inherited_call o = Some m ->
      m self = (Raise e, self') ->
      run o self = (Raise (Lower e), self'))
  /\ (forall m ob self1,
         inherited_call o = Some m ->
         without_converter o = true ->
         m self = (Ok (PyObj ob), self1) ->
         isinstance_Entry ob = true ->
         (forall e self2,
             ToString ob self1 = (Raise e, self2) ->
             run o self = (Raise (Lower e), self2))
         /\ (forall s self2 e self3,
                ToString ob self1 = (Ok s, self2) ->
                GBaseItemFromString s self2 = (Raise e, self3) ->
                run o self = (Raise (Lower e), self3)))
  /\ (forall x self',
         run o self = (Raise x, self') ->
         (exists e, x = Lower e)
         \/ (o = op_api_key_get /\ x = Builtin TypeError))
  /\ (forall d self', run o self <> (Raise (Declared d), self')).
Proof.
  split; [|split; [|split]].
  - intros m e self'. apply run_inherited_raises.
  - intros m ob self1 Hm Hc Hr Hob.
    rewrite (run_without_converter o self m ob self1 Hm Hc Hr Hob).
    split.
    + intros e self2 He. apply bind_raise, call_raise. exact He.
    + intros s self2 e self3 Hs He.
      rewrite (bind_ok _ _ _ _ _ (call_ok _ _ _ _ Hs)).
      apply call_raise. exact He.
  - intros x self'. apply run_raises.
  - intros d self' H.
    destruct (run_raises o self _ _ H) as [[e He] | [_ He]]; discriminate.
Qed.

End FacadeFacts.

(** ** The facade over one HTTP exchange *)

Section WireFacts.
Context {Obj E R : Type}.
Context `{!atom Obj E R, !gdata_base Obj E R, !transport Obj E R}.

Implicit Types (self : state Obj R) (uri body : string).
Implicit Types (c : converter Obj E R).

Lemma call_lbind {A B} (m : L Obj E R A) (k : A -> L Obj E R B) self a self1 :
  m self = (Ok a, self1) ->
  call (lbind m k) self = call (k a) self1.
Proof. intros H. unfold call, lbind. rewrite H. reflexivity. Qed.

(** C2. With a converter [c], [Query], [InsertItem] and [UpdateItem] (the
    methods that take one) return what [c] makes of the body the server
    answered with: [c]'s value when it returns, [c]'s exception when it
    raises, and nothing done to either. The five feed queries, which take
    no converter but bind their own, return in the same way what their
    feed parser makes of the body. *)
Theorem converter_output_is_returned c :
  (forall uri self body self1,
      HttpRequest (mkRequest GET uri None None true) self = (Ok body, self1) ->
      Query uri (Some c) self = call (c body) self1)
  /\ (forall (new_item : PyVal Obj) ps esc self body self1,
         HttpRequest (mkRequest POST "/base/feeds/items" (Some new_item)
                        ps esc) self = (Ok body, self1) ->
         InsertItem new_item ps esc (Some c) self = call (c body) self1)
  /\ (forall item_id (updated_item : PyVal Obj) ps esc self body self1,
         HttpRequest (mkRequest PUT item_id (Some updated_item) ps esc) self
         = (Ok body, self1) ->
         UpdateItem item_id updated_item ps esc (Some c) self
         = call (c body) self1)
  /\ (forall uri self body self1,
         HttpRequest (mkRequest GET uri None None true) self
         = (Ok body, self1) ->
         QuerySnippetsFeed uri self
           = call (GBaseSnippetFeedFromString body) self1
         /\ QueryItemsFeed uri self
           = call (GBaseItemFeedFromString body) self1
         /\ QueryAttributesFeed uri self
           = call (GBaseAttributesFeedFromString body) self1
         /\ QueryItemTypesFeed uri self
           = call (GBaseItemTypesFeedFromString body) self1
         /\ QueryLocalesFeed uri self
           = call (GBaseLocalesFeedFromString body) self1).
Proof.
  split; [|split; [|split]].
  - intros uri self body self1 H.
    rewrite Query_with_converter. exact (call_lbind _ _ _ _ _ H).
  - intros new_item ps esc self body self1 H.
    rewrite InsertItem_with_converter. exact (call_lbind _ _ _ _ _ H).
  - intros item_id updated_item ps esc self body self1 H.
    rewrite UpdateItem_with_converter. exact (call_lbind _ _ _ _ _ H).
  - intros uri self body self1 H.
    unfold QuerySnippetsFeed, QueryItemsFeed, QueryAttributesFeed,
      QueryItemTypesFeed, QueryLocalesFeed.
    repeat split; exact (call_lbind _ _ _ _ _ H).
Qed.

(** The typed wrappers, likewise, return what their parser makes of the
    body. *)
Lemma GetItem_parses_body uri self body self1 :
  HttpRequest (mkRequest GET uri None None true) self = (Ok body, self1) ->
  GetItem uri self = call (GBaseItemFromString body) self1.
Proof. intros H. exact (call_lbind _ _ _ _ _ H). Qed.

(** [DeleteItem] sends one DELETE, at the path computed from the ID. *)
Lemma DeleteItem_request item_id ps esc self :
  DeleteItem item_id ps esc self
  = call (lbind (HttpRequest (mkRequest DELETE (DeleteItem_path item_id)
                                None ps esc))
                (fun _ => lret (PyBool true))) self.
Proof. reflexivity. Qed.
End WireFacts.

(** ** BaseQuery *)

Section BaseQueryFacts.
Context {V : Type}.
Implicit Types (q : gmap string V) (k : string) (v : V).

Lemma getitem_setitem_eq q k v :
  BaseQuery.getitem (BaseQuery.setitem q k v) k = Ok v.
Proof.
  unfold BaseQuery.getitem, BaseQuery.setitem.
  rewrite lookup_insert_eq. reflexivity.
Qed.

Lemma getitem_setitem_ne q k k' v :
  k <> k' ->
  BaseQuery.getitem (BaseQuery.setitem q k v) k' = BaseQuery.getitem q k'.
Proof.
  intros Hne. unfold BaseQuery.getitem, BaseQuery.setitem.
  rewrite lookup_insert_ne by exact Hne. reflexivity.
Qed.

(** C8. Assigning [v] to [bq] stores [v] under the key ['bq'], where
    reading [bq] finds it; no other key changes; and [bq] is nothing but
    the item access and item assignment of the mapping at ['bq'], which
    for every key work as those of a plain container. *)
Theorem bq_set_get q v :
  BaseQuery.bq_set q v !! "bq" = Some v
  /\ BaseQuery.bq_get (BaseQuery.bq_set q v) = Ok v
  /\ (forall k, k <> "bq" ->
                BaseQuery.bq_set q v !! k = q !! k
                /\ BaseQuery.getitem (BaseQuery.bq_set q v) k
                   = BaseQuery.getitem q k)
  /\ BaseQuery.bq_set q v = BaseQuery.setitem q "bq" v
  /\ BaseQuery.bq_get q = BaseQuery.getitem q "bq"
  /\ (forall k v', BaseQuery.getitem (BaseQuery.setitem q k v') k = Ok v')
  /\ (forall k k' v', k <> k' ->
                      BaseQuery.getitem (BaseQuery.setitem q k v') k'
                      = BaseQuery.getitem q k').
Proof.
  split; [apply lookup_insert_eq|].
  split; [apply getitem_setitem_eq|].
  split.
  { intros k Hk. split.
    - apply lookup_insert_ne. congruence.
    - apply getitem_setitem_ne. congruence. }
  split; [reflexivity|]. split; [reflexivity|].
  split; [intros; apply getitem_setitem_eq|].
  intros k k' v' Hne. apply getitem_setitem_ne. exact Hne.
Qed.

(** C10. Reading [bq] on a query whose mapping has no ['bq'] raises
    [KeyError] and returns nothing, [None] included; reading [api_key] on
    a handle whose header mapping has no ['X-Google-Key'] returns
    [None]. *)
Theorem bq_get_unset_raises_KeyError {Obj E R : Type} q :
  q !! "bq" = None ->
  BaseQuery.bq_get q = Raise (KeyError "bq")
  /\ (forall v, BaseQuery.bq_get q <> Ok v)
  /\ (forall (d : gmap string (PyVal Obj)) (w : R),
         d !! "X-Google-Key" = None ->
         api_key_get (E:=E) (mkState (HDict d) w)
         = (Ok PyNone, mkState (HDict d) w)).
Proof.
  intros Hq.
  assert (H : BaseQuery.bq_get q = Raise (KeyError "bq")).
  { unfold BaseQuery.bq_get, BaseQuery._GetBaseQuery, BaseQuery.getitem.
    rewrite Hq. reflexivity. }
  split; [exact H|]. split.
  - intros v Hv. rewrite H in Hv. discriminate.
  - intros d w Hd. unfold api_key_get, __GetAPIKey.
    rewrite _GetAPIKey_dict, Hd. reflexivity.
Qed.
End BaseQueryFacts.

(** ** Runs on the canned server *)

Example DeleteItem_run :
  DeleteItem "http://www.google.com/base/feeds/items/1" None true Demo.fresh
  = (Ok (PyBool true), Demo.sent DELETE "/base/feeds/items/1" Demo.fresh).
Proof. reflexivity. Qed.

Example init_run :
  __init__ PyNone PyNone PyNone "base.google.com" PyNone HNone Demo.blank
  = (Ok tt, mkState (HDict {[ "X-Google-Key" := PyNone ]}) []).
Proof. reflexivity. Qed.

Lemma converter_output_is_returned_witness :
  (HttpRequest (mkRequest GET "/base/feeds/robots" None None true) Demo.fresh
   = (Ok "User-agent: *", Demo.sent GET "/base/feeds/robots" Demo.fresh)
   /\ Query "/base/feeds/robots" (Some Demo.shout) Demo.fresh
      = call (Demo.shout "User-agent: *")
             (Demo.sent GET "/base/feeds/robots" Demo.fresh))
  /\ (HttpRequest (mkRequest POST "/base/feeds/items"
                     (Some (PyObj (Demo.Element "<item/>"))) None true)
        Demo.fresh
      = (Ok "<entry>2</entry>", Demo.sent POST "/base/feeds/items" Demo.fresh)
      /\ InsertItem (PyObj (Demo.Element "<item/>")) None true
           (Some Demo.shout) Demo.fresh
         = call (Demo.shout "<entry>2</entry>")
                (Demo.sent POST "/base/feeds/items" Demo.fresh))
  /\ (HttpRequest (mkRequest PUT "http://www.google.com/base/feeds/items/1"
                     (Some (PyObj (Demo.Element "<item/>"))) None true)
        Demo.fresh
      = (Ok "<entry>1b</entry>",
         Demo.sent PUT "http://www.google.com/base/feeds/items/1" Demo.fresh)
      /\ UpdateItem "http://www.google.com/base/feeds/items/1"
           (PyObj (Demo.Element "<item/>")) None true (Some Demo.shout)
           Demo.fresh
         = call (Demo.shout "<entry>1b</entry>")
             (Demo.sent PUT "http://www.google.com/base/feeds/items/1"
                Demo.fresh))
  /\ (HttpRequest (mkRequest GET "/base/feeds/snippets" None None true)
        Demo.fresh
      = (Ok "<feed/>", Demo.sent GET "/base/feeds/snippets" Demo.fresh)
      /\ QuerySnippetsFeed "/base/feeds/snippets" Demo.fresh
         = call (GBaseSnippetFeedFromString "<feed/>")
                (Demo.sent GET "/base/feeds/snippets" Demo.fresh)
      /\ QueryItemsFeed "/base/feeds/snippets" Demo.fresh
         = call (GBaseItemFeedFromString "<feed/>")
                (Demo.sent GET "/base/feeds/snippets" Demo.fresh)
      /\ QueryAttributesFeed "/base/feeds/snippets" Demo.fresh
         = call (GBaseAttributesFeedFromString "<feed/>")
                (Demo.sent GET "/base/feeds/snippets" Demo.fresh)
      /\ QueryItemTypesFeed "/base/feeds/snippets" Demo.fresh
         = call (GBaseItemTypesFeedFromString "<feed/>")
                (Demo.sent GET "/base/feeds/snippets" Demo.fresh)
      /\ QueryLocalesFeed "/base/feeds/snippets" Demo.fresh
         = call (GBaseLocalesFeedFromString "<feed/>")
                (Demo.sent GET "/base/feeds/snippets" Demo.fresh)).
Proof.
  destruct (converter_output_is_returned Demo.shout) as (HQ & HI & HU & HF).
  split; [|split; [|split]].
  - split; [reflexivity|]. apply HQ. reflexivity.
  - split; [reflexivity|]. apply HI. reflexivity.
  - split; [reflexivity|]. apply HU. reflexivity.
  - split; [reflexivity|].
    apply (HF "/base/feeds/snippets" Demo.fresh "<feed/>"). reflexivity.
Defined.

Lemma Query_without_converter_witness :
  (Get "/base/feeds/items/1" None Demo.fresh
   = (Ok (PyObj (Demo.Entry "<entry>1</entry>")),
      Demo.sent GET "/base/feeds/items/1" Demo.fresh)
   /\ isinstance_atom_Entry (PyObj (Demo.Entry "<entry>1</entry>")) = true
   /\ exists o, PyObj (Demo.Entry "<entry>1</entry>") = PyObj o
        /\ Query "/base/feeds/items/1" None Demo.fresh
           = (s <- call (ToString o) ;; call (GBaseItemFromString s))
               (Demo.sent GET "/base/feeds/items/1" Demo.fresh))
  /\ (Get "/base/feeds/robots" None Demo.fresh
      = (Ok (PyStr "User-agent: *"),
         Demo.sent GET "/base/feeds/robots" Demo.fresh)
      /\ isinstance_atom_Entry (Obj:=Demo.obj) (E:=Demo.err) (R:=Demo.world)
           (PyStr "User-agent: *") = false
      /\ Query "/base/feeds/robots" None Demo.fresh
         = (Ok (PyStr "User-agent: *"),
            Demo.sent GET "/base/feeds/robots" Demo.fresh)).
Proof.
  split.
  - split; [reflexivity|]. split; [reflexivity|].
    apply (Query_without_converter "/base/feeds/items/1" Demo.fresh);
      reflexivity.
  - split; [reflexivity|]. split; [reflexivity|].
    apply (Query_without_converter "/base/feeds/robots" Demo.fresh);
      reflexivity.
Defined.

Lemma api_key_set_get_witness :
  additional_headers Demo.bare = HDict ∅
  /\ (∅ : gmap string (PyVal Demo.obj)) !! "X-Google-Key" = None
  /\ api_key_get (E:=Demo.err) Demo.bare = (Ok PyNone, Demo.bare).
Proof.
  split; [reflexivity|]. split; [reflexivity|].
  apply (proj2 (api_key_set_get (E:=Demo.err) PyNone Demo.bare) ∅);
    reflexivity.
Defined.

Lemma init_binds_header_name_witness :
  __init__ PyNone PyNone PyNone "base.google.com" PyNone HNone Demo.blank
  = (Ok tt, Demo.fresh)
  /\ (exists d, additional_headers Demo.fresh = HDict d
                /\ d !! "X-Google-Key" = Some PyNone)
  /\ api_key_get (E:=Demo.err) Demo.fresh = (Ok PyNone, Demo.fresh)
  /\ ((PyNone : PyVal Demo.obj) = PyNone ->
      api_key_get (E:=Demo.err) Demo.fresh = (Ok PyNone, Demo.fresh)
      /\ exists d, additional_headers Demo.fresh = HDict d
                   /\ is_Some (d !! "X-Google-Key")).
Proof.
  split; [reflexivity|].
  apply (init_binds_header_name PyNone PyNone PyNone "base.google.com" PyNone
           HNone Demo.blank Demo.fresh).
  reflexivity.
Defined.

Lemma facade_propagates_exceptions_witness :
  (* the server answers 404 *)
  (inherited_call (op_GetItem "/nowhere" : Demo.operation)
   = Some (Get "/nowhere" (Some GBaseItemFromString))
   /\ Get "/nowhere" (Some GBaseItemFromString) Demo.fresh
      = (Raise (Demo.HttpStatus 404), Demo.sent GET "/nowhere" Demo.fresh)
   /\ run (op_GetItem "/nowhere" : Demo.operation) Demo.fresh
      = (Raise (Lower (Demo.HttpStatus 404)),
         Demo.sent GET "/nowhere" Demo.fresh))
  (* the entry has no string form *)
  /\ (inherited_call (op_Query "/base/feeds/items/0" None : Demo.operation)
      = Some (Get "/base/feeds/items/0" None)
      /\ without_converter
           (op_Query "/base/feeds/items/0" None : Demo.operation) = true
      /\ Get "/base/feeds/items/0" None Demo.fresh
         = (Ok (PyObj (Demo.Entry "<entry/>")),
            Demo.sent GET "/base/feeds/items/0" Demo.fresh)
      /\ isinstance_Entry (Demo.Entry "<entry/>") = true
      /\ ToString (Demo.Entry "<entry/>")
           (Demo.sent GET "/base/feeds/items/0" Demo.fresh)
         = (Raise Demo.Malformed,
            Demo.sent GET "/base/feeds/items/0" Demo.fresh)
      /\ run (op_Query "/base/feeds/items/0" None : Demo.operation) Demo.fresh
         = (Raise (Lower Demo.Malformed),
            Demo.sent GET "/base/feeds/items/0" Demo.fresh))
  (* the item parser rejects the entry's string form *)
  /\ (Get "/base/feeds/items/9" None Demo.fresh
      = (Ok (PyObj (Demo.Entry "<entry")),
         Demo.sent GET "/base/feeds/items/9" Demo.fresh)
      /\ ToString (Demo.Entry "<entry")
           (Demo.sent GET "/base/feeds/items/9" Demo.fresh)
         = (Ok "<entry", Demo.sent GET "/base/feeds/items/9" Demo.fresh)
      /\ GBaseItemFromString "<entry"
           (Demo.sent GET "/base/feeds/items/9" Demo.fresh)
         = (Raise Demo.Malformed,
            Demo.sent GET "/base/feeds/items/9" Demo.fresh)
      /\ run (op_Query "/base/feeds/items/9" None : Demo.operation) Demo.fresh
         = (Raise (Lower Demo.Malformed),
            Demo.sent GET "/base/feeds/items/9" Demo.fresh))
  (* reading api_key before the constructor ran *)
  /\ (run (op_api_key_get : Demo.operation) Demo.blank
      = (Raise (Builtin TypeError), Demo.blank)
      /\ ((exists e : Demo.err, Builtin TypeError = Lower e)
          \/ ((op_api_key_get : Demo.operation) = op_api_key_get
              /\ Builtin TypeError = Builtin (E:=Demo.err) TypeError))).
Proof.
  split; [|split; [|split]].
  - split; [reflexivity|]. split; [reflexivity|].
    apply (proj1 (facade_propagates_exceptions
                    (op_GetItem "/nowhere" : Demo.operation) Demo.fresh)
             (Get "/nowhere" (Some GBaseItemFromString)));
      reflexivity.
  - do 5 (split; [reflexivity|]).
    destruct (facade_propagates_exceptions
                (op_Query "/base/feeds/items/0" None : Demo.operation)
                Demo.fresh) as (_ & H & _).
    destruct (H (Get "/base/feeds/items/0" None) (Demo.Entry "<entry/>")
                (Demo.sent GET "/base/feeds/items/0" Demo.fresh))
      as [Ha _]; [reflexivity .. |].
    apply Ha. reflexivity.
  - do 3 (split; [reflexivity|]).
    destruct (facade_propagates_exceptions
                (op_Query "/base/feeds/items/9" None : Demo.operation)
                Demo.fresh) as (_ & H & _).
    destruct (H (Get "/base/feeds/items/9" None) (Demo.Entry "<entry")
                (Demo.sent GET "/base/feeds/items/9" Demo.fresh))
      as [_ Hb]; [reflexivity .. |].
    apply (Hb "<entry" (Demo.sent GET "/base/feeds/items/9" Demo.fresh));
      reflexivity.
  - split; [reflexivity|].
    apply (proj1 (proj2 (proj2 (facade_propagates_exceptions
                    (op_api_key_get : Demo.operation) Demo.blank)))
             (Builtin TypeError) Demo.blank).
    reflexivity.
Defined.

Lemma bq_set_get_witness :
  "q" <> "bq"
  /\ BaseQuery.bq_set ({[ "q" := "digital camera" ]} : gmap string string)
       "[brand:canon]" !! "q"
     = ({[ "q" := "digital camera" ]} : gmap string string) !! "q"
  /\ BaseQuery.getitem
       (BaseQuery.bq_set ({[ "q" := "digital camera" ]} : gmap string string)
          "[brand:canon]") "q"
     = BaseQuery.getitem ({[ "q" := "digital camera" ]} : gmap string string)
         "q".
Proof.
  split; [discriminate|].
  apply (proj1 (proj2 (proj2 (bq_set_get
           ({[ "q" := "digital camera" ]} : gmap string string)
           "[brand:canon]"))) "q").
  discriminate.
Defined.

Lemma bq_get_unset_raises_KeyError_witness :
  (∅ : gmap string string) !! "bq" = None
  /\ BaseQuery.bq_get (∅ : gmap string string) = Raise (KeyError "bq")
  /\ (forall v, BaseQuery.bq_get (∅ : gmap string string) <> Ok v)
  /\ (forall (d : gmap string (PyVal Demo.obj)) (w : Demo.world),
         d !! "X-Google-Key" = None ->
         api_key_get (E:=Demo.err) (mkState (HDict d) w)
         = (Ok PyNone, mkState (HDict d) w)).
Proof.
  split; [reflexivity|].
  apply (bq_get_unset_raises_KeyError (∅ : gmap string string)).
  reflexivity.
Defined.

(** * Further properties *)

(** ** The deletion path *)

Lemma lstrip_split (s chars : string) :
  exists p, s = p ++ Py.lstrip s chars /\ Py.all_in p chars = true.
Proof.
  induction s as [|c s IH]; simpl.
  - exists EmptyString. split; reflexivity.
  - destruct (Py.char_in c chars) eqn:Hc.
    + destruct IH as (p & Hs & Hp). exists (String c p). simpl.
      rewrite Hc, Hp. split; [|reflexivity].
      change (String c p ++ Py.lstrip s chars)
        with (String c (p ++ Py.lstrip s chars)).
      f_equal. exact Hs.
    + exists EmptyString. split; reflexivity.
Qed.

Lemma lstrip_head (s chars : string) :
  match Py.lstrip s chars with
  | EmptyString => True
  | String c _ => Py.char_in c chars = false
  end.
Proof.
  induction s as [|c s IH]; simpl; [exact I|].
  destruct (Py.char_in c chars) eqn:Hc; [exact IH | exact Hc].
Qed.

Lemma lstrip_all_in (p s chars : string) :
  Py.all_in p chars = true ->
  Py.lstrip (p ++ s) chars = Py.lstrip s chars.
Proof.
  induction p as [|c p IH]; simpl; [reflexivity|].
  destruct (Py.char_in c chars); simpl; [exact IH | discriminate].
Qed.

Lemma lstrip_length (s chars : string) :
  String.length (Py.lstrip s chars) <= String.length s.
Proof.
  induction s as [|c s IH]; simpl; [lia|].
  destruct (Py.char_in c chars); simpl; lia.
Qed.

Lemma lstrip_fixed (s chars : string) :
  match s with
  | EmptyString => True
  | String c _ => Py.char_in c chars = false
  end ->
  Py.lstrip s chars = s.
Proof. destruct s as [|c s]; simpl; [reflexivity|]. intros ->. reflexivity. Qed.

(** X1. For every item ID, the path [DeleteItem] deletes at is a slash
    followed by what is left of the ID once its longest leading run of
    characters that occur in ['http://www.google.com/'] is taken off: the
    ID is that run followed by the rest of the path, and the rest of the
    path is empty or starts with a character outside the set. *)
Theorem DeleteItem_path_shape (item_id : string) :
  exists run tail,
    item_id = run ++ tail
    /\ Py.all_in run "http://www.google.com/" = true
    /\ match tail with
       | EmptyString => True
       | String c _ => Py.char_in c "http://www.google.com/" = false
       end
    /\ DeleteItem_path item_id = "/" ++ tail.
Proof.
  destruct (lstrip_split item_id "http://www.google.com/") as (run & Hs & Hr).
  exists run, (Py.lstrip item_id "http://www.google.com/").
  split; [exact Hs|]. split; [exact Hr|]. split; [apply lstrip_head|].
  reflexivity.
Qed.

(** X2. For an ID that starts with the host prefix, the deletion path is
    the slash and the remainder of the ID exactly when the remainder is
    empty or starts with a character that does not occur in the prefix. *)
Theorem DeleteItem_path_exact_iff (remainder : string) :
  DeleteItem_path ("http://www.google.com/" ++ remainder) = "/" ++ remainder
  <-> match remainder with
      | EmptyString => True
      | String c _ => Py.char_in c "http://www.google.com/" = false
      end.
Proof.
  rewrite DeleteItem_path_prefixed. split.
  - intros H. injection H as H.
    change (Py.lstrip remainder "http://www.google.com/" = remainder) in H.
    pose proof (lstrip_head remainder "http://www.google.com/") as Hh.
    rewrite H in Hh. exact Hh.
  - intros H. rewrite lstrip_fixed by exact H. reflexivity.
Qed.

(** X3. Leading characters from the set do not matter: an ID with any run
    of them in front deletes at the same path, so the full URL, the
    absolute path and the relative path of an item name one deletion
    path. *)
Theorem DeleteItem_path_ignores_leading (run item_id : string) :
  Py.all_in run "http://www.google.com/" = true ->
  DeleteItem_path (run ++ item_id) = DeleteItem_path item_id.
Proof.
  intros H. unfold DeleteItem_path. rewrite lstrip_all_in by exact H.
  reflexivity.
Qed.

(** X4. The deletion path of a deletion path is that path: an ID that is
    already the path [DeleteItem] computes is deleted where it says. *)
Theorem DeleteItem_path_idempotent (item_id : string) :
  DeleteItem_path (DeleteItem_path item_id) = DeleteItem_path item_id.
Proof.
  unfold DeleteItem_path, Py.format_slash.
  set (tail := Py.lstrip item_id "http://www.google.com/").
  change (Py.lstrip ("/" ++ tail) "http://www.google.com/")
    with (Py.lstrip tail "http://www.google.com/").
  rewrite (lstrip_fixed tail) by apply lstrip_head. reflexivity.
Qed.

(** ** The API key and the header mapping *)

Section HeaderFacts.
Context {Obj E R : Type}.
Implicit Types (self : state Obj R) (v : PyVal Obj).

(** X5. Assigning to [api_key] never raises, whether [additional_headers]
    was [None] or a [dict]; afterwards it is a [dict], every header under
    another name is as it was (none, when the mapping was [None]), and
    nothing else of the handle has changed. *)
Theorem api_key_set_keeps_other_headers v self :
  exists self',
    api_key_set (E:=E) v self = (Ok tt, self')
    /\ rest self' = rest self
    /\ isinstance_dict (additional_headers self') = true
    /\ forall name, name <> "X-Google-Key" ->
         header (additional_headers self') name
         = header (additional_headers self) name.
Proof.
  eexists. split; [apply _SetAPIKey_spec|]. simpl.
  split; [reflexivity|]. split; [reflexivity|].
  intros name Hne. rewrite lookup_insert_ne by congruence.
  destruct (additional_headers self); [apply lookup_empty | reflexivity].
Qed.

(** X6. The last assignment to [api_key] wins: assigning [v1] and then
    [v2] leaves the handle as assigning [v2] alone does. *)
Theorem api_key_set_twice (v1 v2 : PyVal Obj) self :
  (api_key_set (E:=E) v1 ;; api_key_set v2) self = api_key_set v2 self.
Proof.
  unfold bind, api_key_set, __SetAPIKey. rewrite !_SetAPIKey_spec. simpl.
  rewrite insert_insert_eq. reflexivity.
Qed.

(** X7. Reading [api_key] never changes the handle. It raises exactly when
    [additional_headers] is [None], and then a [TypeError]; it returns [v]
    exactly when the mapping is a [dict] that binds the header name to
    [v], or does not bind it and [v] is [None]. *)
Theorem api_key_get_outcomes self :
  (api_key_get (E:=E) self).2 = self
  /\ (additional_headers self = HNone
      <-> (api_key_get (E:=E) self).1 = Raise (Builtin TypeError))
  /\ (forall x, (api_key_get (E:=E) self).1 = Raise x ->
                additional_headers self = HNone)
  /\ (forall v,
        (api_key_get (E:=E) self).1 = Ok v
        <-> exists d, additional_headers self = HDict d
                      /\ (d !! "X-Google-Key" = Some v
                          \/ (d !! "X-Google-Key" = None /\ v = PyNone))).
Proof.
  unfold api_key_get, __GetAPIKey. destruct self as [[|d] w].
  - rewrite _GetAPIKey_None. simpl.
    split; [reflexivity|]. split; [split; reflexivity|].
    split; [reflexivity|].
    intros v. split; [discriminate|]. intros (d & Hd & _). discriminate.
  - rewrite _GetAPIKey_dict. simpl.
    split; [reflexivity|]. split; [split; discriminate|].
    split; [discriminate|].
    intros v. split.
    + intros H. exists d. split; [reflexivity|].
      destruct (d !! "X-Google-Key") as [v0|]; inversion H; subst; eauto.
    + intros (d' & Hd & H). inversion Hd; subst d'.
      destruct H as [H | [H ->]]; rewrite H; reflexivity.
Qed.
End HeaderFacts.

Lemma api_key_set_keeps_other_headers_witness :
  "User-Agent" <> "X-Google-Key"
  /\ exists self',
       api_key_set (E:=Demo.err) (PyStr "new") Demo.keyed = (Ok tt, self')
       /\ header (additional_headers self') "User-Agent"
          = Some (PyStr "demo").
Proof.
  split; [discriminate|].
  destruct (api_key_set_keeps_other_headers (E:=Demo.err) (PyStr "new")
              Demo.keyed) as (self' & Hset & _ & _ & Hkeep).
  exists self'. split; [exact Hset|].
  rewrite (Hkeep "User-Agent"); [reflexivity | discriminate].
Defined.

Lemma api_key_get_outcomes_witness :
  (api_key_get (E:=Demo.err) Demo.blank).1 = Raise (Builtin TypeError)
  /\ additional_headers Demo.blank = HNone.
Proof.
  split; [reflexivity|].
  apply (proj1 (proj2 (proj2 (api_key_get_outcomes (E:=Demo.err) Demo.blank)))
           (Builtin TypeError)).
  reflexivity.
Defined.

(** ** The constructor and the frame of the operations *)

Section FrameFacts.
Context {Obj E R : Type}.
Context `{!atom Obj E R, !gdata_base Obj E R, !GDataService Obj E R}.
Implicit Types (self : state Obj R) (v : PyVal Obj).

(** X8. When the base constructor completes, so does [__init__]; the handle
    is as the base constructor left it but for [X-Google-Key], which is
    bound to the [api_key] argument: a header of that name the base
    constructor stored is overwritten (by [None], when no key was given),
    every other header is kept. *)
Theorem init_after_base_constructor
    (email password source : PyVal Obj) (server : string)
    (api_key : PyVal Obj) (hs : headers Obj) self self1 :
  GDataService__init__ email password "gbase" source server hs self
  = (Ok tt, self1) ->
  exists self',
    __init__ email password source server api_key hs self = (Ok tt, self')
    /\ rest self' = rest self1
    /\ header (additional_headers self') "X-Google-Key" = Some api_key
    /\ forall name, name <> "X-Google-Key" ->
         header (additional_headers self') name
         = header (additional_headers self1) name.
Proof.
  intros Hbase. eexists. split.
  - unfold __init__. rewrite (bind_ok _ _ _ _ _ (call_ok _ _ _ _ Hbase)).
    apply _SetAPIKey_spec.
  - simpl. split; [reflexivity|]. split; [apply lookup_insert_eq|].
    intros name Hne. rewrite lookup_insert_ne by congruence.
    destruct (additional_headers self1); [apply lookup_empty | reflexivity].
Qed.

Lemma call_keeps_headers {A} (m : L Obj E R A) :
  keeps_headers m ->
  forall self, additional_headers (call m self).2 = additional_headers self.
Proof.
  intros Hm self. specialize (Hm self). unfold call.
  destruct (m self) as [[a|e] s]; exact Hm.
Qed.

Lemma bind_keeps_headers {A B} (m : M Obj E R A) (k : A -> M Obj E R B) :
  (forall self, additional_headers (m self).2 = additional_headers self) ->
  (forall a self, additional_headers (k a self).2 = additional_headers self) ->
  forall self, additional_headers (bind m k self).2 = additional_headers self.
Proof.
  intros Hm Hk self. specialize (Hm self). unfold bind.
  destruct (m self) as [[a|x] s]; simpl in *.
  - rewrite Hk. exact Hm.
  - exact Hm.
Qed.

Lemma response_policy_keeps_headers conv (r : PyVal Obj) :
  (forall ob, keeps_headers (ToString ob)) ->
  (forall s, keeps_headers (GBaseItemFromString s)) ->
  forall self,
    additional_headers (response_policy conv r self).2
    = additional_headers self.
Proof.
  intros HT HP self. unfold response_policy.
  destruct conv; [reflexivity|].
  destruct (isinstance_atom_Entry r); [|reflexivity].
  apply bind_keeps_headers.
  - destruct r; try reflexivity. apply call_keeps_headers, HT.
  - intros s self0. apply call_keeps_headers, HP.
Qed.

Lemma api_key_get_by_headers self1 self2 :
  additional_headers self1 = additional_headers self2 ->
  (api_key_get (E:=E) self1).1 = (api_key_get (E:=E) self2).1.
Proof.
  destruct self1 as [h1 w1], self2 as [h2 w2]. simpl. intros <-.
  unfold api_key_get, __GetAPIKey. destruct h1 as [|d].
  - rewrite !_GetAPIKey_None. reflexivity.
  - rewrite !_GetAPIKey_dict. reflexivity.
Qed.

(** X9. The facade changes [additional_headers] only in the constructor
    and in the assignment to [api_key]: when the inherited method an
    operation calls, [ToString] and [GBaseItemFromString] leave the mapping
    alone, every other operation, completed or not, leaves it as it was,
    and [api_key] reads after it what it read before. *)
Theorem facade_keeps_headers (o : @op Obj E R) self :
  assigns_headers o = false ->
  (forall m, inherited_call o = Some m -> keeps_headers m) ->
  (forall ob, keeps_headers (ToString ob)) ->
  (forall s, keeps_headers (GBaseItemFromString s)) ->
  additional_headers (run o self).2 = additional_headers self
  /\ (api_key_get (E:=E) (run o self).2).1 = (api_key_get (E:=E) self).1.
Proof.
  intros Ho Hm HT HP.
  assert (H : additional_headers (run o self).2 = additional_headers self).
  { destruct o as [em pw src srv key hs | | v | uri conv
                  | uri | uri | uri | uri | uri | uri | uri | uri | uri | uri
                  | new_item ps esc conv | item_id ps esc
                  | item_id updated_item ps esc conv];
      simpl in Ho; try discriminate; simpl;
      try (apply call_keeps_headers, Hm; reflexivity).
    - unfold api_key_get, __GetAPIKey. destruct self as [[|d] w].
      + rewrite _GetAPIKey_None. reflexivity.
      + rewrite _GetAPIKey_dict. reflexivity.
    - rewrite Query_policy. apply bind_keeps_headers.
      + apply call_keeps_headers, Hm. reflexivity.
      + intros r self0. apply response_policy_keeps_headers; assumption.
    - rewrite (proj1 (Insert_Update_follow_policy new_item new_item ""
                        ps esc conv self)).
      apply bind_keeps_headers.
      + apply call_keeps_headers, Hm. reflexivity.
      + intros r self0. apply response_policy_keeps_headers; assumption.
    - rewrite (proj2 (Insert_Update_follow_policy updated_item updated_item
                        item_id ps esc conv self)).
      apply bind_keeps_headers.
      + apply call_keeps_headers, Hm. reflexivity.
      + intros r self0. apply response_policy_keeps_headers; assumption. }
  split; [exact H|]. apply api_key_get_by_headers. exact H.
Qed.
End FrameFacts.

Section ReturnFacts.
Context {Obj E R : Type}.
Context `{!atom Obj E R, !gdata_base Obj E R, !GDataService Obj E R}.
Implicit Types (self : state Obj R) (v r : PyVal Obj).

Lemma call_returns {A} (m : L Obj E R A) self (a : A) self' :
  call m self = (Ok a, self') -> m self = (Ok a, self').
Proof.
  unfold call. destruct (m self) as [[a0|e] s]; intros H; inversion H.
  reflexivity.
Qed.

Lemma bind_returns {A B} (m : M Obj E R A) (k : A -> M Obj E R B)
    self (b : B) self' :
  bind m k self = (Ok b, self') ->
  exists a self1, m self = (Ok a, self1) /\ k a self1 = (Ok b, self').
Proof.
  unfold bind. destruct (m self) as [[a|x] s]; intros H; [|discriminate].
  exists a, s. split; [reflexivity | exact H].
Qed.

(** How a response leaves the policy: as it came, or re-parsed. *)
Lemma response_policy_returns conv r self v self' :
  response_policy conv r self = (Ok v, self') ->
  (v = r /\ self' = self)
  \/ (conv = None
      /\ exists ob s self2,
           r = PyObj ob /\ isinstance_Entry ob = true
           /\ ToString ob self = (Ok s, self2)
           /\ GBaseItemFromString s self2 = (Ok v, self')).
Proof.
  unfold response_policy. destruct conv as [c|].
  - intros H. inversion H. left. split; reflexivity.
  - destruct (isinstance_atom_Entry r) eqn:Hr.
    + intros H. right. split; [reflexivity|].
      destruct (isinstance_atom_Entry_obj r Hr) as (ob & -> & Hob).
      destruct (bind_returns _ _ _ _ _ H) as (s & self2 & Hs & Hv).
      exists ob, s, self2. split; [reflexivity|]. split; [exact Hob|].
      split; [exact (call_returns _ _ _ _ Hs) | exact (call_returns _ _ _ _ Hv)].
    + intros H. inversion H. left. split; reflexivity.
Qed.

Lemma call_then_policy_returns (m : L Obj E R (PyVal Obj)) conv self v self' :
  (response <- call m ;; response_policy conv response) self = (Ok v, self') ->
  exists r self1,
    m self = (Ok r, self1)
    /\ ((v = r /\ self' = self1)
        \/ (conv = None
            /\ exists ob s self2,
                 r = PyObj ob /\ isinstance_Entry ob = true
                 /\ ToString ob self1 = (Ok s, self2)
                 /\ GBaseItemFromString s self2 = (Ok v, self'))).
Proof.
  intros H. destruct (bind_returns _ _ _ _ _ H) as (r & self1 & Hr & Hp).
  exists r, self1. split; [exact (call_returns _ _ _ _ Hr)|].
  exact (response_policy_returns _ _ _ _ _ Hp).
Qed.

(** X10. What an operation returns, it was given: for every operation
    but the constructor and the accessors of [api_key], a returned value is
    the value the one inherited call returned, with the handle as that
    call left it, or, for an operation without a converter whose inherited
    call returned an entry, the value [GBaseItemFromString] returned for
    the entry's [ToString()]. *)
Theorem run_returns (o : @op Obj E R) m self v self' :
  inherited_call o = Some m ->
  assigns_headers o = false ->
  run o self = (Ok v, self') ->
  exists r self1,
    m self = (Ok r, self1)
    /\ ((v = r /\ self' = self1)
        \/ (without_converter o = true
            /\ exists ob s self2,
                 r = PyObj ob /\ isinstance_Entry ob = true
                 /\ ToString ob self1 = (Ok s, self2)
                 /\ GBaseItemFromString s self2 = (Ok v, self'))).
Proof.
  intros Hm Ho Hrun.
  destruct o as [em pw src srv key hs | | v0 | uri conv
                | uri | uri | uri | uri | uri | uri | uri | uri | uri | uri
                | new_item ps esc conv | item_id ps esc
                | item_id updated_item ps esc conv];
    simpl in Ho; try discriminate;
    simpl in Hm; inversion Hm; subst m; clear Hm; simpl in Hrun;
    try (exists v, self'; split;
         [exact (call_returns _ _ _ _ Hrun) | left; split; reflexivity]).
  - rewrite Query_policy in Hrun.
    destruct (call_then_policy_returns _ _ _ _ _ Hrun)
      as (r & self1 & Hr & [H | [-> H]]);
      exists r, self1; (split; [exact Hr|]); [left | right]; auto.
  - rewrite (proj1 (Insert_Update_follow_policy new_item new_item ""
                      ps esc conv self)) in Hrun.
    destruct (call_then_policy_returns _ _ _ _ _ Hrun)
      as (r & self1 & Hr & [H | [-> H]]);
      exists r, self1; (split; [exact Hr|]); [left | right]; auto.
  - rewrite (proj2 (Insert_Update_follow_policy updated_item updated_item
                      item_id ps esc conv self)) in Hrun.
    destruct (call_then_policy_returns _ _ _ _ _ Hrun)
      as (r & self1 & Hr & [H | [-> H]]);
      exists r, self1; (split; [exact Hr|]); [left | right]; auto.
Qed.
End ReturnFacts.

(** ** BaseQuery, again *)

Section BaseQueryMore.
Context {V : Type}.
Implicit Types (q : gmap string V) (k : string) (v : V).

(** X11. Assignments to [bq] compose as those of a mapping: the last one
    wins, an assignment of the value [bq] already has changes nothing, and
    an assignment to [bq] and an item assignment under another key can be
    made in either order. *)
Theorem bq_set_composes q v1 v2 k v :
  BaseQuery.bq_set (BaseQuery.bq_set q v1) v2 = BaseQuery.bq_set q v2
  /\ (BaseQuery.bq_get q = Ok v1 -> BaseQuery.bq_set q v1 = q)
  /\ (k <> "bq" ->
      BaseQuery.setitem (BaseQuery.bq_set q v1) k v
      = BaseQuery.bq_set (BaseQuery.setitem q k v) v1).
Proof.
  unfold BaseQuery.bq_set, BaseQuery._SetBaseQuery, BaseQuery.setitem.
  split; [apply insert_insert_eq|]. split.
  - unfold BaseQuery.bq_get, BaseQuery._GetBaseQuery, BaseQuery.getitem.
    destruct (q !! "bq") as [v0|] eqn:Hq; intros H; inversion H; subst.
    apply insert_id. exact Hq.
  - intros Hne. apply insert_insert_ne. congruence.
Qed.
End BaseQueryMore.

(** ** Further runs on the canned server *)

Lemma Demo_to_string_keeps_headers (ob : Demo.obj) :
  keeps_headers (ToString ob).
Proof.
  intros self. simpl. unfold Demo.to_string.
  destruct (String.eqb _ _); reflexivity.
Qed.

Lemma Demo_item_parser_keeps_headers (s : string) :
  keeps_headers (GBaseItemFromString (Obj:=Demo.obj) s).
Proof.
  intros self. simpl. unfold Demo.parse_entry.
  destruct (Py.startswith _ _); reflexivity.
Qed.

Lemma DeleteItem_path_exact_iff_witness :
  DeleteItem_path ("http://www.google.com/" ++ "base/feeds/items/1")
  = "/" ++ "base/feeds/items/1"
  /\ DeleteItem_path ("http://www.google.com/" ++ "help/1") <> "/" ++ "help/1".
Proof.
  split.
  - apply (proj2 (DeleteItem_path_exact_iff "base/feeds/items/1")).
    reflexivity.
  - intros H. apply (proj1 (DeleteItem_path_exact_iff "help/1")) in H.
    discriminate H.
Defined.

Lemma DeleteItem_path_ignores_leading_witness :
  Py.all_in "http://www.google.com/" "http://www.google.com/" = true
  /\ Py.all_in "/" "http://www.google.com/" = true
  /\ DeleteItem_path ("http://www.google.com/" ++ "base/feeds/items/1")
     = DeleteItem_path "base/feeds/items/1"
  /\ DeleteItem_path ("/" ++ "base/feeds/items/1")
     = DeleteItem_path "base/feeds/items/1".
Proof.
  split; [reflexivity|]. split; [reflexivity|]. split.
  - apply (DeleteItem_path_ignores_leading "http://www.google.com/").
    reflexivity.
  - apply (DeleteItem_path_ignores_leading "/"). reflexivity.
Defined.

Lemma init_after_base_constructor_witness :
  GDataService__init__ PyNone PyNone "gbase" PyNone "base.google.com"
    (HDict Demo.own_headers) Demo.blank
  = (Ok tt, mkState (HDict Demo.own_headers) [])
  /\ Demo.own_headers !! "X-Google-Key" = Some (PyStr "old")
  /\ exists self',
       __init__ PyNone PyNone PyNone "base.google.com" PyNone
         (HDict Demo.own_headers) Demo.blank = (Ok tt, self')
       /\ rest self' = []
       /\ header (additional_headers self') "X-Google-Key" = Some PyNone
       /\ forall name, name <> "X-Google-Key" ->
            header (additional_headers self') name
            = header (HDict Demo.own_headers) name.
Proof.
  split; [reflexivity|]. split; [reflexivity|].
  apply (init_after_base_constructor PyNone PyNone PyNone "base.google.com"
           PyNone (HDict Demo.own_headers) Demo.blank
           (mkState (HDict Demo.own_headers) [])).
  reflexivity.
Defined.

Lemma facade_keeps_headers_witness :
  assigns_headers (op_Query "/base/feeds/items/1" None : Demo.operation)
  = false
  /\ keeps_headers (Get (Obj:=Demo.obj) "/base/feeds/items/1" None)
  /\ (run (op_Query "/base/feeds/items/1" None : Demo.operation)
        Demo.keyed).1
     = Ok (PyObj (Demo.Item "<entry>1</entry>"))
  /\ additional_headers
       (run (op_Query "/base/feeds/items/1" None : Demo.operation)
          Demo.keyed).2
     = additional_headers Demo.keyed
  /\ (api_key_get (E:=Demo.err)
        (run (op_Query "/base/feeds/items/1" None : Demo.operation)
           Demo.keyed).2).1
     = (api_key_get (E:=Demo.err) Demo.keyed).1.
Proof.
  assert (HGet : keeps_headers
                   (Get (Obj:=Demo.obj) "/base/feeds/items/1" None)).
  { intros self. reflexivity. }
  split; [reflexivity|]. split; [exact HGet|]. split; [reflexivity|].
  apply (facade_keeps_headers
           (op_Query "/base/feeds/items/1" None : Demo.operation) Demo.keyed).
  - reflexivity.
  - intros m Hm. injection Hm as <-. exact HGet.
  - exact Demo_to_string_keeps_headers.
  - exact Demo_item_parser_keeps_headers.
Defined.

Lemma run_returns_witness :
  inherited_call (op_Query "/base/feeds/items/1" None : Demo.operation)
  = Some (Get "/base/feeds/items/1" None)
  /\ assigns_headers (op_Query "/base/feeds/items/1" None : Demo.operation)
     = false
  /\ run (op_Query "/base/feeds/items/1" None : Demo.operation) Demo.fresh
     = (Ok (PyObj (Demo.Item "<entry>1</entry>")),
        Demo.sent GET "/base/feeds/items/1" Demo.fresh)
  /\ exists r self1,
       Get "/base/feeds/items/1" None Demo.fresh = (Ok r, self1)
       /\ ((PyObj (Demo.Item "<entry>1</entry>") = r
            /\ Demo.sent GET "/base/feeds/items/1" Demo.fresh = self1)
           \/ (without_converter
                 (op_Query "/base/feeds/items/1" None : Demo.operation) = true
               /\ exists ob s self2,
                    r = PyObj ob /\ isinstance_Entry ob = true
                    /\ ToString ob self1 = (Ok s, self2)
                    /\ GBaseItemFromString s self2
                       = (Ok (PyObj (Demo.Item "<entry>1</entry>")),
                          Demo.sent GET "/base/feeds/items/1" Demo.fresh))).
Proof.
  split; [reflexivity|]. split; [reflexivity|]. split; [reflexivity|].
  apply (run_returns (op_Query "/base/feeds/items/1" None : Demo.operation)
           (Get "/base/feeds/items/1" None) Demo.fresh);
    reflexivity.
Defined.

Lemma bq_set_composes_witness :
  BaseQuery.bq_get ({[ "bq" := "[brand:canon]" ]} : gmap string string)
  = Ok "[brand:canon]"
  /\ "max-results" <> "bq"
  /\ BaseQuery.bq_set ({[ "bq" := "[brand:canon]" ]} : gmap string string)
       "[brand:canon]"
     = {[ "bq" := "[brand:canon]" ]}
  /\ BaseQuery.setitem
       (BaseQuery.bq_set ({[ "bq" := "[brand:canon]" ]} : gmap string string)
          "[brand:canon]") "max-results" "10"
     = BaseQuery.bq_set
         (BaseQuery.setitem
            ({[ "bq" := "[brand:canon]" ]} : gmap string string)
            "max-results" "10") "[brand:canon]".
Proof.
  split; [reflexivity|]. split; [discriminate|].
  destruct (bq_set_composes
              ({[ "bq" := "[brand:canon]" ]} : gmap string string)
              "[brand:canon]" "[brand:canon]" "max-results" "10")
    as (_ & Hid & Hcomm).
  split; [apply Hid; reflexivity | apply Hcomm; discriminate].
Defined.
